(** * qlever-control: the [osm-update] command

    A shallow embedding of [src/qlever/commands/osm_update.py].

    The command reads an argparse namespace, picks the replication server,
    checks the polygon file, assembles the [olu] command line, has it
    wrapped by [Containerize().containerize_command] and either shows it or
    runs it with [run_command].

    Strings are [string]; the port is a Python [int], hence [Z] printed in
    decimal; optional arguments ([nargs='?']) are [option string] with
    Python's truthiness.  Calls that leave the function (the logger,
    [self.show], [os.path.exists], the containerize helper, [run_command])
    are recorded, in program order, in a trace of events, and the functions
    live in a writer monad over that trace with Python exceptions as a second
    kind of outcome. *)

From Stdlib Require Import String Ascii List ZArith Bool Lia DecimalString.
Import ListNotations.
Local Open Scope string_scope.

(** ** Python values *)

Module Py.

(** [str(i)] for an [int]. *)
Definition str_of_int (i : Z) : string :=
  NilZero.string_of_int (Z.to_int i).

(** Truthiness of a value that is [None] or a [str]. *)
Definition truthy (v : option string) : bool :=
  match v with
  | None => false
  | Some EmptyString => false
  | Some _ => true
  end.

(** What an f-string prints for such a value. *)
Definition fmt (v : option string) : string :=
  match v with
  | None => "None"
  | Some s => s
  end.

(** The double-quote character and the newline, as strings. *)
Definition dquote : string := String (ascii_of_nat 34) EmptyString.
Definition newline : string := String (ascii_of_nat 10) EmptyString.

(** [sep.join(parts)]. *)
Definition join (sep : string) (parts : list string) : string :=
  String.concat sep parts.

(** The two kinds of exception the code tells apart: [except Exception]
    catches the first and lets the second (KeyboardInterrupt, SystemExit)
    through. *)
Inductive error : Type :=
| Exception (msg : string)
| BaseException (msg : string).

End Py.

(** ** The collaborators and what is observed of them *)

(** The arguments of one call of [Containerize().containerize_command]. *)
Record containerize_args : Type := {
  cmd : string;
  container_system : string;
  run_subcommand : string;
  image_name : string;
  container_name : string;
  volumes : list (string * string);
  working_directory : option string;
  use_bash : bool
}.

(** How a call of [run_command] ends for its caller. *)
Inductive run_result : Type :=
| Returned
| Raised (e : Py.error).

(** The surroundings of one run of the command: the file system as
    [os.path.exists] sees it, and the two helpers of [qlever] that are taken
    as given. *)
Record World : Type := {
  os_path_exists : string -> bool;
  containerize_command : containerize_args -> string;
  run_command : string -> bool -> run_result
}.

Inductive event : Type :=
| EPathExists (path : string)
| ELogError (msg : string)
| ELogInfo (msg : string)
| EShow (text : string) (only_show : bool)
| EContainerize (ca : containerize_args)
| ERunCommand (command : string) (show_output : bool).

(** ** The monad: a trace of events and a value or a raised exception *)

Inductive outcome (A : Type) : Type :=
| Value (a : A)
| Raise (e : Py.error).
Arguments Value {A} a.
Arguments Raise {A} e.

Definition M (A : Type) : Type := (list event * outcome A)%type.

Definition ret {A} (a : A) : M A := ([], Value a).

Definition raise {A} (e : Py.error) : M A := ([], Raise e).

Definition bind {A B} (m : M A) (k : A -> M B) : M B :=
  match m with
  | (t, Value a) => let (t', r) := k a in ((t ++ t')%list, r)
  | (t, Raise e) => (t, Raise e)
  end.

Definition emit (ev : event) : M unit := ([ev], Value tt).

(** [try: body except Exception as e: handler(str(e))]. *)
Definition try_except {A} (body : M A) (handler : string -> M A) : M A :=
  match body with
  | (t, Raise (Py.Exception msg)) => let (t', r) := handler msg in ((t ++ t')%list, r)
  | other => other
  end.

Definition trace {A} (m : M A) : list event := fst m.
Definition result {A} (m : M A) : outcome A := snd m.

Declare Scope py_scope.
Delimit Scope py_scope with py.
Notation "x <- m ;; k" := (bind m (fun x => k))
  (at level 61, m at next level, right associativity) : py_scope.
Notation "m ;; k" := (bind m (fun _ => k))
  (at level 61, right associativity) : py_scope.
Local Open Scope py_scope.

(** ** The command *)

(** The argparse namespace, with the Qleverfile's values in it. *)
Record Args : Type := {
  name : string;
  host_name : string;
  port : Z;
  access_token : string;
  granularity : list string;
  polyfile : option string;
  replication_server : option string;
  show : bool
}.

(** [choices] of the positional argument [granularity]. *)
Definition granularity_choices : list string := ["minute"; "hour"; "day"].

Record OsmUpdateCommand : Type := {
  planet_replication_server_url : string
}.

(** [__init__] *)
Definition init : OsmUpdateCommand :=
  {| planet_replication_server_url := "https://planet.osm.org/replication/" |}.

(** [description] *)
Definition description : string := "Update OSM data for a given dataset".

(** [should_have_qleverfile] *)
Definition should_have_qleverfile : bool := true.

(** [relevant_qleverfile_arguments] *)
Definition relevant_qleverfile_arguments : list (string * list string) :=
  [("data", ["name"]); ("server", ["host_name"; "port"; "access_token"])].

(** [lst[0]] *)
Definition index0 (lst : list string) : M string :=
  match lst with
  | x :: _ => ret x
  | [] => raise (Py.Exception "list index out of range")
  end.

Section Command.

Variable w : World.

Definition log_error (msg : string) : M unit := emit (ELogError msg).
Definition log_info (msg : string) : M unit := emit (ELogInfo msg).

(** [self.show(text, only_show=...)] of [QleverCommand]. *)
Definition self_show (text : string) (only_show : bool) : M unit :=
  emit (EShow text only_show).

(** [os.path.exists(path)] *)
Definition path_exists (path : string) : M bool :=
  emit (EPathExists path) ;; ret (os_path_exists w path).

(** [Containerize().containerize_command(...)] *)
Definition containerize (ca : containerize_args) : M string :=
  emit (EContainerize ca) ;; ret (containerize_command w ca).

(** [run_command(cmd, show_output=...)] *)
Definition call_run_command (command : string) (show_output : bool) : M unit :=
  emit (ERunCommand command show_output) ;;
  match run_command w command show_output with
  | Returned => ret tt
  | Raised e => raise e
  end.

(** Lines 96 to 99: the command before the polygon option. *)
Definition olu_cmd_base (replication_server_url : string) (args : Args) : string :=
  let sparql_endpoint := "http://" ++ host_name args ++ ":" ++ Py.str_of_int (port args) in
  let olu_cmd := sparql_endpoint in
  let olu_cmd := olu_cmd ++ (" -a " ++ access_token args) in
  let olu_cmd := olu_cmd ++ (" -f " ++ replication_server_url) in
  let olu_cmd := olu_cmd ++ " --qlever" in
  olu_cmd.

(** Lines 101 to 111: [inl b] stands for [return b] out of the enclosing
    function, [inr olu_cmd] for falling through with the local variable
    [olu_cmd]. *)
Definition polyfile_step (olu_cmd : string) (args : Args) : M (bool + string) :=
  if Py.truthy (polyfile args) then
    found <- path_exists (Py.fmt (polyfile args)) ;;
    if negb found then
      log_error ("No file matching " ++ Py.dquote ++ Py.fmt (polyfile args)
                 ++ Py.dquote ++ " found") ;;
      log_info EmptyString ;;
      log_info "Check if the polyfile exists and if the path is correct." ;;
      ret (inl false)
    else
      ret (inr (olu_cmd ++ (" --polygon " ++ Py.fmt (polyfile args))))
  else
    ret (inr olu_cmd).

(** The arguments of the call at lines 113 to 122. *)
Definition olu_containerize_args (olu_cmd : string) (args : Args) : containerize_args :=
  {| cmd := olu_cmd;
     container_system := "docker";
     run_subcommand := "run --rm";
     image_name := "olu:latest";
     container_name := "olu-" ++ name args;
     volumes := [("$(pwd)", "/update")];
     working_directory := Some "/update";
     use_bash := false |}.

(** [execute_olu] *)
Definition execute_olu (replication_server_url : string) (args : Args) : M bool :=
  let olu_cmd := olu_cmd_base replication_server_url args in
  step <- polyfile_step olu_cmd args ;;
  match step with
  | inl b => ret b
  | inr olu_cmd =>
      olu_cmd <- containerize (olu_containerize_args olu_cmd args) ;;
      self_show olu_cmd (show args) ;;
      if show args then ret true
      else
        try_except
          (call_run_command olu_cmd true ;; ret true)
          (fun e =>
             log_error ("Error running osm-live-updates: " ++ e) ;;
             ret false)
  end.

(** Lines 72 to 77: the local variable [replication_server]. *)
Definition resolve_replication_server
    (self : OsmUpdateCommand) (granularity : string) (args : Args) : string :=
  if Py.truthy (replication_server args) then Py.fmt (replication_server args)
  else planet_replication_server_url self ++ granularity ++ "/".

(** Lines 79 to 84: the text handed to [self.show]. *)
Definition cmd_description
    (granularity replication_server : string) (args : Args) : list string :=
  ([] ++ [("Update OSM data for dataset '" ++ name args ++ "' with granularity '"
           ++ granularity ++ "' from the OSM replication server '"
           ++ replication_server ++ "'.")%string])%list.

(** [execute] *)
Definition execute (self : OsmUpdateCommand) (args : Args) : M bool :=
  granularity <- index0 (granularity args) ;;
  let replication_server := resolve_replication_server self granularity args in
  self_show (Py.join Py.newline
               (cmd_description granularity replication_server args))
            (show args) ;;
  ok <- execute_olu replication_server args ;;
  if negb ok then ret false else ret true.

End Command.

(** ** The process-execution helper *)

(** What happens to the child process of one call. *)
Inductive child_outcome : Type :=
| LaunchFailed (cause : string)
| Exited (status : Z) (report : string).

(** Modelled from the spec: [run_command] of [qlever.util], which the
    command imports and whose source is not at hand.  The spec's error
    taxonomy has a launch error (the child could not start) and a non-zero
    exit error (the child ran but failed), both reported to the caller with
    a cause, and success on exit status zero; the caller sees an error as a
    Python [Exception] carrying the cause. *)
Definition run_command_model
    (child : string -> child_outcome) (command : string) (show_output : bool)
  : run_result :=
  match child command with
  | LaunchFailed cause => Raised (Py.Exception cause)
  | Exited status report =>
      if (status =? 0)%Z then Returned else Raised (Py.Exception report)
  end.

(** ** Reading a run *)

(** The commands handed to [run_command] in a trace, in order. *)
Fixpoint launches (tr : list event) : list (string * bool) :=
  match tr with
  | [] => []
  | ERunCommand c o :: tr' => (c, o) :: launches tr'
  | _ :: tr' => launches tr'
  end.

(** The invocations built by the containerize helper in a trace, in order. *)
Fixpoint invocations (tr : list event) : list containerize_args :=
  match tr with
  | [] => []
  | EContainerize ca :: tr' => ca :: invocations tr'
  | _ :: tr' => invocations tr'
  end.

(** The texts handed to [self.show] in a trace, in order. *)
Fixpoint shown (tr : list event) : list string :=
  match tr with
  | [] => []
  | EShow s _ :: tr' => s :: shown tr'
  | _ :: tr' => shown tr'
  end.

(** The paths looked up on disk in a trace, in order. *)
Fixpoint lookups (tr : list event) : list string :=
  match tr with
  | [] => []
  | EPathExists p :: tr' => p :: lookups tr'
  | _ :: tr' => lookups tr'
  end.

(** A polygon file was named and is not on disk. *)
Definition polyfile_missing (w : World) (args : Args) : bool :=
  Py.truthy (polyfile args) && negb (os_path_exists w (Py.fmt (polyfile args))).

(** The value of the local variable [olu_cmd] when line 113 is reached. *)
Definition olu_cmd_final (replication_server_url : string) (args : Args) : string :=
  if Py.truthy (polyfile args)
  then olu_cmd_base replication_server_url args
       ++ (" --polygon " ++ Py.fmt (polyfile args))
  else olu_cmd_base replication_server_url args.

(** The invocation built at lines 113 to 122 when they are reached. *)
Definition invocation (replication_server_url : string) (args : Args) : containerize_args :=
  olu_containerize_args (olu_cmd_final replication_server_url args) args.

(** The events of the check of the polygon file, when it passes. *)
Definition polyfile_events (args : Args) : list event :=
  if Py.truthy (polyfile args) then [EPathExists (Py.fmt (polyfile args))] else [].

(** The events of a failed check of the polygon file. *)
Definition missing_events (args : Args) : list event :=
  [EPathExists (Py.fmt (polyfile args));
   ELogError ("No file matching " ++ Py.dquote ++ Py.fmt (polyfile args)
              ++ Py.dquote ++ " found");
   ELogInfo EmptyString;
   ELogInfo "Check if the polyfile exists and if the path is correct."].

(** Steps 1 to 5 of the spec's command builder, as a list of tokens. *)
Definition spec_tokens
    (endpoint token source : string) (boundary : option string) : list string :=
  ([endpoint; "-a"; token; "-f"; source; "--qlever"]
   ++ match boundary with
      | Some path => ["--polygon"; path]
      | None => []
      end)%list.

(** The boundary file as the spec's builder receives it: a path, when one
    was supplied. *)
Definition boundary_of (args : Args) : option string :=
  if Py.truthy (polyfile args) then polyfile args else None.

(** [args] with another value for [--polyfile]. *)
Definition with_polyfile (args : Args) (v : option string) : Args :=
  {| name := name args;
     host_name := host_name args;
     port := port args;
     access_token := access_token args;
     granularity := granularity args;
     polyfile := v;
     replication_server := replication_server args;
     show := show args |}.

(** The first scenario of the spec. *)
Definition scenario_1 (sh : bool) : Args :=
  {| name := "myregion";
     host_name := "localhost";
     port := 7001;
     access_token := "tok";
     granularity := ["day"];
     polyfile := None;
     replication_server := None;
     show := sh |}.

(** A world for examples: only [present] is on disk, the containerize helper
    prefixes the command with the runtime, its subcommand, the container's
    name and the image, and the child ends as [child] says. *)
Definition example_world (present : string) (child : string -> child_outcome) : World :=
  {| os_path_exists := fun p => String.eqb p present;
     containerize_command := fun ca =>
       container_system ca ++ " " ++ run_subcommand ca ++ " --name "
       ++ container_name ca ++ " " ++ image_name ca ++ " " ++ cmd ca;
     run_command := run_command_model child |}.

(** What the [try] statement of lines 128 to 134 adds to the trace. *)
Definition handler_events (r : run_result) : list event :=
  match r with
  | Raised (Py.Exception e) => [ELogError ("Error running osm-live-updates: " ++ e)]
  | _ => []
  end.

(** How lines 128 to 134 end. *)
Definition run_outcome (r : run_result) : outcome bool :=
  match r with
  | Returned => Value true
  | Raised (Py.Exception _) => Value false
  | Raised (Py.BaseException e) => Raise (Py.BaseException e)
  end.

(** The line shown first by [execute]. *)
Definition shown_description
    (self : OsmUpdateCommand) (g : string) (args : Args) : string :=
  Py.join Py.newline
    (cmd_description g (resolve_replication_server self g args) args).

(** A request with an override, for examples. *)
Definition override_request : Args :=
  {| name := "myregion";
     host_name := "localhost";
     port := 7001;
     access_token := "tok";
     granularity := ["hour"];
     polyfile := None;
     replication_server := Some "https://download.geofabrik.de/updates/";
     show := true |}.

(** A request that names a polygon file. *)
Definition polygon_request (sh : bool) : Args :=
  with_polyfile (scenario_1 sh) (Some "region.poly").

(** A child that exits with status zero, and one that fails. *)
Definition child_ok (command : string) : child_outcome := Exited 0 EmptyString.
Definition child_fails (command : string) : child_outcome :=
  Exited 1 "docker: no such image".
Definition child_not_started (command : string) : child_outcome :=
  LaunchFailed "bash: docker: command not found".

(** [args] with another value for [--show], for the granularity, for
    [--replication-server] and for the access token. *)
Definition with_show (args : Args) (v : bool) : Args :=
  {| name := name args;
     host_name := host_name args;
     port := port args;
     access_token := access_token args;
     granularity := granularity args;
     polyfile := polyfile args;
     replication_server := replication_server args;
     show := v |}.

Definition with_granularity (args : Args) (v : list string) : Args :=
  {| name := name args;
     host_name := host_name args;
     port := port args;
     access_token := access_token args;
     granularity := v;
     polyfile := polyfile args;
     replication_server := replication_server args;
     show := show args |}.

Definition with_replication_server (args : Args) (v : option string) : Args :=
  {| name := name args;
     host_name := host_name args;
     port := port args;
     access_token := access_token args;
     granularity := granularity args;
     polyfile := polyfile args;
     replication_server := v;
     show := show args |}.

Definition with_access_token (args : Args) (v : string) : Args :=
  {| name := name args;
     host_name := host_name args;
     port := port args;
     access_token := v;
     granularity := granularity args;
     polyfile := polyfile args;
     replication_server := replication_server args;
     show := show args |}.

(** A world in which the user interrupts the child: [run_command] ends with
    a KeyboardInterrupt, which is no [Exception]. *)
Definition interrupted_world (present : string) : World :=
  {| os_path_exists := fun p => String.eqb p present;
     containerize_command := containerize_command (example_world present child_ok);
     run_command := fun _ _ => Raised (Py.BaseException "KeyboardInterrupt") |}.

(** A world in which every path is on disk. *)
Definition full_disk_world (child : string -> child_outcome) : World :=
  {| os_path_exists := fun _ => true;
     containerize_command := containerize_command (example_world EmptyString child);
     run_command := run_command_model child |}.

(** The error lines of a trace, in order. *)
Fixpoint errors (tr : list event) : list string :=
  match tr with
  | [] => []
  | ELogError msg :: tr' => msg :: errors tr'
  | _ :: tr' => errors tr'
  end.

(** ** Strings *)

Lemma append_assoc (a b c : string) : (a ++ b) ++ c = a ++ (b ++ c).
Proof.
  induction a as [| ch a IH]; simpl; [reflexivity | now rewrite IH].
Qed.

Lemma truthy_some (v : option string) :
  Py.truthy v = true <-> exists p, v = Some p /\ p <> EmptyString.
Proof.
  split.
  - destruct v as [[| ch s] |]; simpl; try discriminate.
    intros _. exists (String ch s). split; [reflexivity | discriminate].
  - intros (p & -> & Hp). destruct p; [congruence | reflexivity].
Qed.

Lemma truthy_false (v : option string) :
  Py.truthy v = false <-> v = None \/ v = Some EmptyString.
Proof.
  destruct v as [[| ch s] |]; simpl; split; intros H; auto;
    try discriminate; destruct H; discriminate.
Qed.

(** ** The runs of [execute_olu], case by case *)

Section Runs.

Variable w : World.
Variables (url : string) (args : Args).

Lemma execute_olu_missing :
  polyfile_missing w args = true ->
  execute_olu w url args = (missing_events args, Value false).
Proof.
  unfold polyfile_missing, execute_olu, polyfile_step, missing_events.
  destruct (Py.truthy (polyfile args)); simpl; [| discriminate].
  destruct (os_path_exists w _); simpl; [discriminate | reflexivity].
Qed.

Lemma execute_olu_show :
  polyfile_missing w args = false ->
  show args = true ->
  execute_olu w url args =
    ((polyfile_events args
      ++ [EContainerize (invocation url args);
          EShow (containerize_command w (invocation url args)) true])%list,
     Value true).
Proof.
  unfold polyfile_missing, execute_olu, polyfile_step, polyfile_events,
    invocation, olu_cmd_final.
  intros Hm Hs. rewrite Hs.
  destruct (Py.truthy (polyfile args)); simpl in *; [| reflexivity].
  destruct (os_path_exists w _); simpl in *; [reflexivity | discriminate].
Qed.

Lemma execute_olu_run :
  polyfile_missing w args = false ->
  show args = false ->
  let final := containerize_command w (invocation url args) in
  execute_olu w url args =
    ((polyfile_events args
      ++ [EContainerize (invocation url args);
          EShow final false;
          ERunCommand final true]
      ++ handler_events (run_command w final true))%list,
     run_outcome (run_command w final true)).
Proof.
  unfold polyfile_missing, execute_olu, polyfile_step, polyfile_events,
    invocation, olu_cmd_final, call_run_command.
  intros Hm Hs. rewrite Hs.
  destruct (Py.truthy (polyfile args)); simpl in *.
  - destruct (os_path_exists w _); simpl in *; [| discriminate].
    destruct (run_command w _ true) as [| [e | e]]; reflexivity.
  - destruct (run_command w _ true) as [| [e | e]]; reflexivity.
Qed.

End Runs.


(** ** What a run of [execute_olu] contains *)

Section Contents.

Variable w : World.
Variables (url : string) (args : Args).

Ltac by_cases :=
  destruct (polyfile_missing w args) eqn:Hm;
  [ rewrite (execute_olu_missing w url args Hm)
  | destruct (show args) eqn:Hs;
    [ rewrite (execute_olu_show w url args Hm Hs)
    | rewrite (execute_olu_run w url args Hm Hs) ] ];
  unfold polyfile_events, missing_events, trace, result;
  try destruct (Py.truthy (polyfile args)) eqn:Ht;
  try destruct (run_command w _ true) as [| [e | e]];
  simpl.

Lemma invocations_execute_olu :
  invocations (trace (execute_olu w url args)) =
    if polyfile_missing w args then [] else [invocation url args].
Proof. by_cases; reflexivity. Qed.

Lemma launches_execute_olu :
  launches (trace (execute_olu w url args)) =
    if polyfile_missing w args || show args then []
    else [(containerize_command w (invocation url args), true)].
Proof. by_cases; reflexivity. Qed.

Lemma shown_execute_olu :
  shown (trace (execute_olu w url args)) =
    if polyfile_missing w args then []
    else [containerize_command w (invocation url args)].
Proof. by_cases; reflexivity. Qed.

Lemma lookups_execute_olu :
  lookups (trace (execute_olu w url args)) =
    if Py.truthy (polyfile args) then [Py.fmt (polyfile args)] else [].
Proof.
  by_cases; try reflexivity.
  all: unfold polyfile_missing in Hm; rewrite Ht in Hm; discriminate.
Qed.

Lemma result_execute_olu_missing :
  polyfile_missing w args = true ->
  result (execute_olu w url args) = Value false.
Proof. intros Hm. now rewrite (execute_olu_missing w url args Hm). Qed.

Lemma result_execute_olu_show :
  polyfile_missing w args = false -> show args = true ->
  result (execute_olu w url args) = Value true.
Proof. intros Hm Hs. now rewrite (execute_olu_show w url args Hm Hs). Qed.

Lemma result_execute_olu_run :
  polyfile_missing w args = false -> show args = false ->
  result (execute_olu w url args) =
    run_outcome (run_command w (containerize_command w (invocation url args)) true).
Proof. intros Hm Hs. now rewrite (execute_olu_run w url args Hm Hs). Qed.

End Contents.

(** [polyfile_missing] in terms of the argument and the disk. *)
Lemma polyfile_missing_iff (w : World) (args : Args) :
  polyfile_missing w args = true <->
  exists p, polyfile args = Some p /\ p <> EmptyString /\ os_path_exists w p = false.
Proof.
  unfold polyfile_missing. rewrite andb_true_iff, negb_true_iff, truthy_some.
  split.
  - intros ((p & Hp & Hne) & Hx). exists p. rewrite Hp in Hx. auto.
  - intros (p & Hp & Hne & Hx). rewrite Hp. split; [exists p; auto | exact Hx].
Qed.

(** ** The run of [execute] *)

Lemma execute_run (w : World) (self : OsmUpdateCommand) (args : Args)
    (g : string) (rest : list string) :
  granularity args = g :: rest ->
  execute w self args =
    (EShow (shown_description self g args) (show args)
       :: trace (execute_olu w (resolve_replication_server self g args) args),
     result (execute_olu w (resolve_replication_server self g args) args)).
Proof.
  intros Hg. unfold execute, shown_description. rewrite Hg. simpl.
  destruct (execute_olu w _ args) as [t [[|] | e]]; simpl;
    now rewrite ?app_nil_r.
Qed.

Lemma trace_execute (w : World) (self : OsmUpdateCommand) (args : Args)
    (g : string) (rest : list string) :
  granularity args = g :: rest ->
  trace (execute w self args) =
    EShow (shown_description self g args) (show args)
      :: trace (execute_olu w (resolve_replication_server self g args) args).
Proof. intros Hg. now rewrite (execute_run w self args g rest Hg). Qed.

Lemma result_execute (w : World) (self : OsmUpdateCommand) (args : Args)
    (g : string) (rest : list string) :
  granularity args = g :: rest ->
  result (execute w self args) =
    result (execute_olu w (resolve_replication_server self g args) args).
Proof. intros Hg. now rewrite (execute_run w self args g rest Hg). Qed.

Lemma execute_no_granularity (w : World) (self : OsmUpdateCommand) (args : Args) :
  granularity args = [] ->
  execute w self args = ([], Raise (Py.Exception "list index out of range")).
Proof. intros Hg. unfold execute. now rewrite Hg. Qed.

(** ** The command line as tokens *)

Lemma olu_cmd_final_tokens (url : string) (args : Args) :
  olu_cmd_final url args =
    Py.join " "
      (spec_tokens ("http://" ++ host_name args ++ ":" ++ Py.str_of_int (port args))
         (access_token args) url (boundary_of args)).
Proof.
  unfold olu_cmd_final, boundary_of, olu_cmd_base, spec_tokens, Py.join.
  destruct (Py.truthy (polyfile args)) eqn:Ht.
  - apply truthy_some in Ht. destruct Ht as (p & -> & _).
    cbn [Py.fmt app String.concat]. now rewrite !append_assoc.
  - cbn [app String.concat]. now rewrite !append_assoc.
Qed.

(** ** The claims *)

(** C1. The inner command handed to the containerize helper is, in this
    order, the endpoint URL [http://h:p], [-a t], [-f u], [--qlever] and, only
    when a polygon file was supplied, [--polygon path], joined by single
    spaces; the container is named [olu-] followed by the dataset name.  In
    the spec's first scenario the command is
    [http://localhost:7001 -a tok -f https://planet.osm.org/replication/day/ --qlever]
    and the container [olu-myregion]. *)
Theorem C1_inner_command_token_order (w : World) (url : string) (args : Args) :
  polyfile_missing w args = false ->
  (exists ca,
      invocations (trace (execute_olu w url args)) = [ca]
      /\ cmd ca =
           Py.join " "
             (spec_tokens
                ("http://" ++ host_name args ++ ":" ++ Py.str_of_int (port args))
                (access_token args) url (boundary_of args))
      /\ container_name ca = "olu-" ++ name args)
  /\ (forall sh, exists ca,
         invocations (trace (execute w init (scenario_1 sh))) = [ca]
         /\ cmd ca =
              "http://localhost:7001 -a tok -f https://planet.osm.org/replication/day/ --qlever"
         /\ Py.join " "
              ["http://localhost:7001"; "-a"; "tok"; "-f";
               "https://planet.osm.org/replication/day/"; "--qlever"] = cmd ca
         /\ container_name ca = "olu-myregion").
Proof.
  intros Hm. split.
  - exists (invocation url args). rewrite invocations_execute_olu, Hm.
    split; [reflexivity |]. split; [| reflexivity].
    apply olu_cmd_final_tokens.
  - intros sh.
    exists (invocation "https://planet.osm.org/replication/day/" (scenario_1 sh)).
    rewrite (execute_run w init (scenario_1 sh) "day" []) by reflexivity.
    unfold trace at 1. cbn [fst invocations].
    rewrite invocations_execute_olu.
    repeat split; reflexivity.
Qed.

Lemma C1_inner_command_token_order_witness :
  polyfile_missing (example_world "region.poly" (fun _ => Exited 0 EmptyString))
    (with_polyfile (scenario_1 false) (Some "region.poly")) = false
  /\ exists ca,
      invocations
        (trace (execute_olu (example_world "region.poly" (fun _ => Exited 0 EmptyString))
                  "https://planet.osm.org/replication/day/"
                  (with_polyfile (scenario_1 false) (Some "region.poly")))) = [ca]
      /\ cmd ca =
           "http://localhost:7001 -a tok -f https://planet.osm.org/replication/day/ --qlever --polygon region.poly".
Proof.
  split; [reflexivity |].
  destruct (C1_inner_command_token_order
              (example_world "region.poly" (fun _ => Exited 0 EmptyString))
              "https://planet.osm.org/replication/day/"
              (with_polyfile (scenario_1 false) (Some "region.poly"))
              eq_refl) as [(ca & Hi & Hc & _) _].
  exists ca. split; [exact Hi | exact Hc].
Defined.

(** C2. For a granularity [g] among minute, hour and day: without an
    override the replication server is
    [https://planet.osm.org/replication/] followed by [g] and a slash; with a
    non-empty override it is the override, whatever [g] is.  [execute] shows
    that URL and hands it to [execute_olu]. *)
Theorem C2_replication_source (w : World) (g : string) (args : Args) :
  In g granularity_choices ->
  granularity args = [g] ->
  (replication_server args = None ->
     resolve_replication_server init g args
     = "https://planet.osm.org/replication/" ++ g ++ "/")
  /\ (forall u, replication_server args = Some u -> u <> EmptyString ->
        resolve_replication_server init g args = u)
  /\ execute w init args =
       (EShow (shown_description init g args) (show args)
          :: trace (execute_olu w (resolve_replication_server init g args) args),
        result (execute_olu w (resolve_replication_server init g args) args)).
Proof.
  intros _ Hg. unfold resolve_replication_server. repeat split.
  - intros ->. reflexivity.
  - intros u -> Hu. destruct u; [congruence | reflexivity].
  - now apply execute_run with (rest := []).
Qed.

Lemma C2_replication_source_witness :
  resolve_replication_server init "day" (scenario_1 true)
    = "https://planet.osm.org/replication/day/"
  /\ resolve_replication_server init "hour" override_request
     = "https://download.geofabrik.de/updates/".
Proof.
  split.
  - destruct (C2_replication_source
                (example_world "region.poly" (fun _ => Exited 0 EmptyString))
                "day" (scenario_1 true)
                (or_intror (or_intror (or_introl eq_refl))) eq_refl)
      as (H & _ & _).
    exact (H eq_refl).
  - destruct (C2_replication_source
                (example_world "region.poly" (fun _ => Exited 0 EmptyString))
                "hour" override_request
                (or_intror (or_introl eq_refl)) eq_refl)
      as (_ & H & _).
    apply H; [reflexivity | discriminate].
Defined.

(** C3. The check of the polygon file fails, and the command returns
    [False] without launching anything, exactly when a non-empty path was
    given and it is not on disk; for an absent or empty path the check
    passes with no event at all, so nothing is looked up on disk. *)
Theorem C3_boundary_file_validation
    (w : World) (url olu_cmd : string) (args : Args) :
  (result (polyfile_step w olu_cmd args) = Value (inl false)
   <-> exists p, polyfile args = Some p /\ p <> EmptyString
                 /\ os_path_exists w p = false)
  /\ (result (execute_olu w url args) = Value false
      /\ launches (trace (execute_olu w url args)) = []
      <-> exists p, polyfile args = Some p /\ p <> EmptyString
                    /\ os_path_exists w p = false)
  /\ (polyfile args = None \/ polyfile args = Some EmptyString ->
      polyfile_step w olu_cmd args = ([], Value (inr olu_cmd))
      /\ lookups (trace (execute_olu w url args)) = []).
Proof.
  rewrite <- polyfile_missing_iff. repeat split.
  - unfold polyfile_step, polyfile_missing.
    destruct (Py.truthy (polyfile args)); simpl; [| discriminate].
    destruct (os_path_exists w _); simpl; [discriminate | reflexivity].
  - unfold polyfile_step, polyfile_missing.
    destruct (Py.truthy (polyfile args)); simpl; [| discriminate].
    destruct (os_path_exists w _); simpl; [discriminate | reflexivity].
  - intros [Hr Hl]. rewrite launches_execute_olu in Hl.
    destruct (polyfile_missing w args) eqn:Hm; [reflexivity |].
    destruct (show args) eqn:Hs; simpl in Hl; [| discriminate].
    rewrite (result_execute_olu_show w url args Hm Hs) in Hr. discriminate.
  - now apply result_execute_olu_missing.
  - rewrite launches_execute_olu, H. reflexivity.
  - apply truthy_false in H. unfold polyfile_step. now rewrite H.
  - apply truthy_false in H. rewrite lookups_execute_olu. now rewrite H.
Qed.

(** C4. When a non-empty polygon file path is given and the file is not on
    disk, [execute] returns [False]; the containerize helper is not called
    and nothing is launched: after the description, the run consists of the
    lookup and the three log lines, and ends there. *)
Theorem C4_missing_boundary_file_aborts
    (w : World) (self : OsmUpdateCommand) (args : Args) (g p : string) :
  granularity args = [g] ->
  polyfile args = Some p ->
  p <> EmptyString ->
  os_path_exists w p = false ->
  result (execute w self args) = Value false
  /\ invocations (trace (execute w self args)) = []
  /\ launches (trace (execute w self args)) = []
  /\ trace (execute w self args) =
       [EShow (shown_description self g args) (show args);
        EPathExists p;
        ELogError ("No file matching " ++ Py.dquote ++ p ++ Py.dquote ++ " found");
        ELogInfo EmptyString;
        ELogInfo "Check if the polyfile exists and if the path is correct."].
Proof.
  intros Hg Hp Hne Hx.
  assert (Hm : polyfile_missing w args = true)
    by (apply polyfile_missing_iff; exists p; auto).
  rewrite (execute_run w self args g [] Hg).
  rewrite (execute_olu_missing w _ args Hm).
  unfold missing_events, trace, result. rewrite Hp. simpl.
  repeat split; reflexivity.
Qed.

Lemma C4_missing_boundary_file_aborts_witness :
  result (execute (example_world "other.poly" child_ok) init (polygon_request false))
    = Value false
  /\ invocations
       (trace (execute (example_world "other.poly" child_ok) init
                 (polygon_request false))) = [].
Proof.
  destruct (C4_missing_boundary_file_aborts
              (example_world "other.poly" child_ok) init (polygon_request false)
              "day" "region.poly" eq_refl eq_refl)
    as (Hr & Hi & _); [discriminate | reflexivity |].
  split; [exact Hr | exact Hi].
Defined.

(** C5. With [--show] and a polygon file that is absent or on disk,
    [run_command] is not called, the containerized command is shown, and
    [execute] returns [True]. *)
Theorem C5_show_never_runs
    (w : World) (self : OsmUpdateCommand) (args : Args) (g : string) :
  granularity args = [g] ->
  show args = true ->
  polyfile_missing w args = false ->
  result (execute w self args) = Value true
  /\ launches (trace (execute w self args)) = []
  /\ exists ca,
       invocations (trace (execute w self args)) = [ca]
       /\ shown (trace (execute w self args))
          = [shown_description self g args; containerize_command w ca]
       /\ last (trace (execute w self args)) (ELogInfo EmptyString)
          = EShow (containerize_command w ca) true.
Proof.
  intros Hg Hs Hm.
  rewrite (trace_execute w self args g [] Hg), (result_execute w self args g [] Hg).
  set (url := resolve_replication_server self g args).
  cbn [launches invocations shown].
  rewrite launches_execute_olu, invocations_execute_olu, shown_execute_olu.
  rewrite (result_execute_olu_show w url args Hm Hs), Hm, Hs. simpl orb. cbv iota.
  split; [reflexivity |]. split; [reflexivity |].
  exists (invocation url args). split; [reflexivity |]. split; [reflexivity |].
  rewrite (execute_olu_show w url args Hm Hs). unfold trace, polyfile_events.
  destruct (Py.truthy (polyfile args)); reflexivity.
Qed.

Lemma C5_show_never_runs_witness :
  result (execute (example_world "region.poly" child_fails) init (polygon_request true))
    = Value true
  /\ launches
       (trace (execute (example_world "region.poly" child_fails) init
                 (polygon_request true))) = [].
Proof.
  destruct (C5_show_never_runs
              (example_world "region.poly" child_fails) init (polygon_request true)
              "day" eq_refl eq_refl eq_refl)
    as (Hr & Hl & _).
  split; [exact Hr | exact Hl].
Defined.

(** C6. Without [--show] and with the polygon file accepted, the command is
    handed to [run_command] exactly once.  When the child cannot be started
    or exits with a non-zero status the result is [False] and the cause is
    logged; when it exits with status zero the result is [True].  For the
    caller this is: [False] on an [Exception], [True] on a normal return. *)
Theorem C6_execute_launches_once
    (w : World) (self : OsmUpdateCommand) (args : Args) (g : string)
    (child : string -> child_outcome) :
  granularity args = [g] ->
  show args = false ->
  polyfile_missing w args = false ->
  (forall c o, run_command w c o = run_command_model child c o) ->
  exists final,
    launches (trace (execute w self args)) = [(final, true)]
    /\ (forall cause, child final = LaunchFailed cause ->
          result (execute w self args) = Value false
          /\ In (ELogError ("Error running osm-live-updates: " ++ cause))
               (trace (execute w self args)))
    /\ (forall status report, child final = Exited status report -> status <> 0%Z ->
          result (execute w self args) = Value false
          /\ In (ELogError ("Error running osm-live-updates: " ++ report))
               (trace (execute w self args)))
    /\ (forall report, child final = Exited 0 report ->
          result (execute w self args) = Value true)
    /\ (forall e, run_command w final true = Raised (Py.Exception e) ->
          result (execute w self args) = Value false)
    /\ (run_command w final true = Returned ->
          result (execute w self args) = Value true).
Proof.
  intros Hg Hs Hm Hrun.
  rewrite (trace_execute w self args g [] Hg), (result_execute w self args g [] Hg).
  set (url := resolve_replication_server self g args).
  exists (containerize_command w (invocation url args)).
  cbn [launches]. rewrite launches_execute_olu, Hm, Hs. simpl orb. cbv iota.
  rewrite (execute_olu_run w url args Hm Hs). unfold trace, result. cbn [fst snd].
  set (final := containerize_command w (invocation url args)).
  assert (Hlog : forall e, run_command w final true = Raised (Py.Exception e) ->
            In (ELogError ("Error running osm-live-updates: " ++ e))
              (EShow (shown_description self g args) false
                 :: polyfile_events args
                 ++ [EContainerize (invocation url args); EShow final false;
                     ERunCommand final true]
                 ++ handler_events (run_command w final true))).
  { intros e He. rewrite He. right. apply in_or_app. right.
    apply in_or_app. right. left. reflexivity. }
  split; [reflexivity |].
  split; [| split; [| split; [| split]]].
  - intros cause Hc.
    assert (He : run_command w final true = Raised (Py.Exception cause))
      by (rewrite Hrun; unfold run_command_model; now rewrite Hc).
    split; [now rewrite He | now apply Hlog].
  - intros status report Hc Hne.
    assert (He : run_command w final true = Raised (Py.Exception report)).
    { rewrite Hrun. unfold run_command_model. rewrite Hc.
      destruct (Z.eqb_spec status 0); [contradiction | reflexivity]. }
    split; [now rewrite He | now apply Hlog].
  - intros report Hc.
    rewrite Hrun. unfold run_command_model. now rewrite Hc.
  - intros e He. now rewrite He.
  - intros He. now rewrite He.
Qed.

Lemma C6_execute_launches_once_witness :
  exists final,
    launches (trace (execute (example_world "region.poly" child_fails) init
                       (polygon_request false))) = [(final, true)]
    /\ result (execute (example_world "region.poly" child_fails) init
                 (polygon_request false)) = Value false.
Proof.
  destruct (C6_execute_launches_once
              (example_world "region.poly" child_fails) init (polygon_request false)
              "day" child_fails eq_refl eq_refl eq_refl (fun _ _ => eq_refl))
    as (final & Hl & _ & Hexit & _).
  exists final. split; [exact Hl |].
  apply (Hexit 1%Z "docker: no such image"); [reflexivity | discriminate].
Defined.

(** C7. Every invocation built is named [olu-] followed by the dataset
    name, mounts the current directory at [/update], works in [/update], uses
    the image [olu:latest] under [docker run --rm], and asks for no shell
    around the inner command; one such invocation is built whenever the
    polygon file is accepted. *)
Theorem C7_container_invocation (w : World) (url : string) (args : Args) :
  (forall ca, In ca (invocations (trace (execute_olu w url args))) ->
     container_name ca = "olu-" ++ name args
     /\ volumes ca = [("$(pwd)", "/update")]
     /\ working_directory ca = Some "/update"
     /\ image_name ca = "olu:latest"
     /\ container_system ca = "docker"
     /\ run_subcommand ca = "run --rm"
     /\ use_bash ca = false)
  /\ (polyfile_missing w args = false ->
      exists ca, invocations (trace (execute_olu w url args)) = [ca]).
Proof.
  rewrite invocations_execute_olu. split.
  - intros ca Hin. destruct (polyfile_missing w args); [contradiction |].
    destruct Hin as [<- | []]. repeat split; reflexivity.
  - intros ->. now exists (invocation url args).
Qed.

(** C8. Two requests that differ only in that one names a polygon file that
    is on disk and the other names none build invocations that differ only
    in the inner command, and there only by the added [--polygon path]. *)
Theorem C8_polygon_only_difference
    (w0 w1 : World) (url : string) (args : Args) (p : string) :
  Py.truthy (polyfile args) = false ->
  p <> EmptyString ->
  os_path_exists w1 p = true ->
  exists ca0 ca1,
    invocations (trace (execute_olu w0 url args)) = [ca0]
    /\ invocations (trace (execute_olu w1 url (with_polyfile args (Some p)))) = [ca1]
    /\ cmd ca1 = cmd ca0 ++ " --polygon " ++ p
    /\ (exists tokens,
          cmd ca0 = Py.join " " tokens
          /\ cmd ca1 = Py.join " " (tokens ++ ["--polygon"; p])%list)
    /\ container_system ca1 = container_system ca0
    /\ run_subcommand ca1 = run_subcommand ca0
    /\ image_name ca1 = image_name ca0
    /\ container_name ca1 = container_name ca0
    /\ volumes ca1 = volumes ca0
    /\ working_directory ca1 = working_directory ca0
    /\ use_bash ca1 = use_bash ca0.
Proof.
  intros Ht Hne Hx.
  assert (Ht1 : Py.truthy (polyfile (with_polyfile args (Some p))) = true)
    by (apply truthy_some; exists p; auto).
  exists (invocation url args), (invocation url (with_polyfile args (Some p))).
  rewrite !invocations_execute_olu. unfold polyfile_missing.
  rewrite Ht, Ht1. cbn [polyfile with_polyfile Py.fmt]. rewrite Hx.
  split; [reflexivity |]. split; [reflexivity |].
  split.
  { unfold invocation, olu_containerize_args, olu_cmd_final. cbn [cmd].
    rewrite Ht, Ht1. reflexivity. }
  split; [| repeat split; reflexivity].
  exists (spec_tokens
            ("http://" ++ host_name args ++ ":" ++ Py.str_of_int (port args))
            (access_token args) url None).
  unfold invocation, olu_containerize_args. cbn [cmd].
  rewrite !olu_cmd_final_tokens. unfold boundary_of. rewrite Ht, Ht1.
  split; reflexivity.
Qed.

Lemma C8_polygon_only_difference_witness :
  exists ca0 ca1,
    invocations
      (trace (execute_olu (example_world "region.poly" child_ok)
                "https://planet.osm.org/replication/day/" (scenario_1 false))) = [ca0]
    /\ invocations
         (trace (execute_olu (example_world "region.poly" child_ok)
                   "https://planet.osm.org/replication/day/"
                   (polygon_request false))) = [ca1]
    /\ cmd ca1 = cmd ca0 ++ " --polygon " ++ "region.poly".
Proof.
  destruct (C8_polygon_only_difference
              (example_world "region.poly" child_ok)
              (example_world "region.poly" child_ok)
              "https://planet.osm.org/replication/day/" (scenario_1 false)
              "region.poly" eq_refl)
    as (ca0 & ca1 & H0 & H1 & Hc & _); [discriminate | reflexivity |].
  exists ca0, ca1. repeat split; assumption.
Defined.

(** The invocation is a function of the URL and of five fields of the
    request. *)
Lemma invocation_ext (url : string) (a1 a2 : Args) :
  name a1 = name a2 -> host_name a1 = host_name a2 -> port a1 = port a2 ->
  access_token a1 = access_token a2 -> polyfile a1 = polyfile a2 ->
  invocation url a1 = invocation url a2.
Proof.
  intros Hn Hh Hp Ha Hf.
  unfold invocation, olu_containerize_args, olu_cmd_final, olu_cmd_base.
  now rewrite Hn, Hh, Hp, Ha, Hf.
Qed.

(** C9. Building is deterministic: two runs on the same request, whatever
    the disk, the helpers and the child do in each, build the same
    invocation, inner command included, whenever both build one; and a run
    builds at most one. *)
Theorem C9_assembly_deterministic
    (w1 w2 : World) (self : OsmUpdateCommand) (args : Args)
    (ca1 ca2 : containerize_args) :
  In ca1 (invocations (trace (execute w1 self args))) ->
  In ca2 (invocations (trace (execute w2 self args))) ->
  ca1 = ca2
  /\ (length (invocations (trace (execute w1 self args))) <= 1)%nat.
Proof.
  destruct (granularity args) as [| g rest] eqn:Hg.
  - rewrite (execute_no_granularity w1 self args Hg). intros [].
  - rewrite (trace_execute w1 self args g rest Hg),
      (trace_execute w2 self args g rest Hg).
    cbn [invocations]. rewrite !invocations_execute_olu.
    destruct (polyfile_missing w1 args); [intros [] |].
    destruct (polyfile_missing w2 args); [intros _ [] |].
    intros [<- | []] [<- | []]. split; [reflexivity | apply le_n].
Qed.

Lemma C9_assembly_deterministic_witness :
  In (invocation "https://planet.osm.org/replication/day/" (polygon_request false))
     (invocations
        (trace (execute (example_world "region.poly" child_ok) init
                  (polygon_request false))))
  /\ In (invocation "https://planet.osm.org/replication/day/" (polygon_request false))
       (invocations
          (trace (execute (example_world "region.poly" child_not_started) init
                    (polygon_request false))))
  /\ (length
        (invocations
           (trace (execute (example_world "region.poly" child_ok) init
                     (polygon_request false)))) <= 1)%nat.
Proof.
  assert (H1 : In (invocation "https://planet.osm.org/replication/day/"
                     (polygon_request false))
                 (invocations
                    (trace (execute (example_world "region.poly" child_ok) init
                              (polygon_request false)))))
    by (left; reflexivity).
  assert (H2 : In (invocation "https://planet.osm.org/replication/day/"
                     (polygon_request false))
                 (invocations
                    (trace (execute (example_world "region.poly" child_not_started)
                              init (polygon_request false)))))
    by (left; reflexivity).
  split; [exact H1 |]. split; [exact H2 |].
  exact (proj2 (C9_assembly_deterministic
                  (example_world "region.poly" child_ok)
                  (example_world "region.poly" child_not_started)
                  init (polygon_request false) _ _ H1 H2)).
Defined.

(** C10. With [--show], the polygon file is still looked up, and the result
    is [True] exactly when that check passes: for a non-empty path that is
    not on disk the result is [False], no invocation is built, and nothing
    but the description is shown. *)
Theorem C10_show_checks_boundary_file
    (w : World) (self : OsmUpdateCommand) (args : Args) (g : string) :
  granularity args = [g] ->
  show args = true ->
  (result (execute w self args) = Value true <-> polyfile_missing w args = false)
  /\ lookups (trace (execute w self args))
     = (if Py.truthy (polyfile args) then [Py.fmt (polyfile args)] else [])
  /\ (forall p, polyfile args = Some p -> p <> EmptyString ->
        os_path_exists w p = false ->
        result (execute w self args) = Value false
        /\ invocations (trace (execute w self args)) = []
        /\ launches (trace (execute w self args)) = []
        /\ shown (trace (execute w self args)) = [shown_description self g args]
        /\ lookups (trace (execute w self args)) = [p]).
Proof.
  intros Hg Hs.
  rewrite (trace_execute w self args g [] Hg), (result_execute w self args g [] Hg).
  set (url := resolve_replication_server self g args).
  cbn [lookups invocations launches shown].
  rewrite lookups_execute_olu, invocations_execute_olu, launches_execute_olu,
    shown_execute_olu.
  split; [| split].
  - destruct (polyfile_missing w args) eqn:Hm.
    + rewrite (result_execute_olu_missing w url args Hm).
      split; discriminate.
    + rewrite (result_execute_olu_show w url args Hm Hs). split; reflexivity.
  - reflexivity.
  - intros p Hp Hne Hx.
    assert (Hm : polyfile_missing w args = true)
      by (apply polyfile_missing_iff; exists p; auto).
    rewrite (result_execute_olu_missing w url args Hm), Hm.
    assert (Ht : Py.truthy (polyfile args) = true)
      by (apply truthy_some; exists p; auto).
    rewrite Ht, Hp. repeat split; reflexivity.
Qed.

Lemma C10_show_checks_boundary_file_witness :
  result (execute (example_world "other.poly" child_ok) init (polygon_request true))
    = Value false
  /\ shown (trace (execute (example_world "other.poly" child_ok) init
                     (polygon_request true)))
     = [shown_description init "day" (polygon_request true)].
Proof.
  destruct (C10_show_checks_boundary_file
              (example_world "other.poly" child_ok) init (polygon_request true)
              "day" eq_refl eq_refl)
    as (_ & _ & H).
  destruct (H "region.poly" eq_refl) as (Hr & _ & _ & Hsh & _);
    [discriminate | reflexivity |].
  split; [exact Hr | exact Hsh].
Defined.

(** ** Further properties of [execute] and [execute_olu] *)

(** The errors logged by [execute_olu], case by case. *)
Lemma errors_execute_olu (w : World) (url : string) (args : Args) :
  errors (trace (execute_olu w url args)) =
    if polyfile_missing w args
    then ["No file matching " ++ Py.dquote ++ Py.fmt (polyfile args)
          ++ Py.dquote ++ " found"]
    else if show args then []
    else errors (handler_events
                   (run_command w (containerize_command w (invocation url args)) true)).
Proof.
  destruct (polyfile_missing w args) eqn:Hm;
    [ rewrite (execute_olu_missing w url args Hm); reflexivity |].
  destruct (show args) eqn:Hs;
    [ rewrite (execute_olu_show w url args Hm Hs)
    | rewrite (execute_olu_run w url args Hm Hs) ];
    unfold polyfile_events, trace; cbn [fst];
    destruct (Py.truthy (polyfile args)); reflexivity.
Qed.

(** X1. An empty [--replication-server] counts as none: the whole run is
    the one of the same request without the option. *)
Theorem empty_override_is_no_override
    (w : World) (self : OsmUpdateCommand) (args : Args) :
  replication_server args = Some EmptyString ->
  execute w self args = execute w self (with_replication_server args None).
Proof.
  intros Hr. unfold execute, resolve_replication_server, cmd_description.
  cbn [with_replication_server granularity replication_server name show].
  rewrite Hr. reflexivity.
Qed.

Lemma empty_override_is_no_override_witness :
  execute (example_world "region.poly" child_ok) init
    (with_replication_server (polygon_request false) (Some EmptyString))
  = execute (example_world "region.poly" child_ok) init (polygon_request false).
Proof.
  exact (empty_override_is_no_override
           (example_world "region.poly" child_ok) init
           (with_replication_server (polygon_request false) (Some EmptyString))
           eq_refl).
Defined.

(** X2. An empty [--polyfile] counts as none: the whole run is the one of
    the same request without the option, and the disk is not consulted. *)
Theorem empty_polyfile_is_no_polyfile
    (w : World) (self : OsmUpdateCommand) (args : Args) :
  polyfile args = Some EmptyString ->
  execute w self args = execute w self (with_polyfile args None)
  /\ lookups (trace (execute w self args)) = [].
Proof.
  intros Hp.
  assert (He : forall url,
             execute_olu w url args = execute_olu w url (with_polyfile args None)).
  { intros url. unfold execute_olu, polyfile_step, olu_containerize_args, olu_cmd_base.
    cbn [with_polyfile polyfile name host_name port access_token show].
    rewrite Hp. reflexivity. }
  assert (Hx : execute w self args = execute w self (with_polyfile args None)).
  { unfold execute, resolve_replication_server, cmd_description.
    cbn [with_polyfile granularity replication_server name show].
    destruct (index0 (granularity args)) as [t [g | e]]; [| reflexivity].
    cbn [bind]. now rewrite He. }
  split; [exact Hx |].
  destruct (granularity args) as [| g rest] eqn:Hg.
  - now rewrite (execute_no_granularity w self args Hg).
  - rewrite (trace_execute w self args g rest Hg). cbn [lookups].
    rewrite lookups_execute_olu, Hp. reflexivity.
Qed.

Lemma empty_polyfile_is_no_polyfile_witness :
  execute (example_world "region.poly" child_ok) init
    (with_polyfile (scenario_1 false) (Some EmptyString))
  = execute (example_world "region.poly" child_ok) init
      (with_polyfile (with_polyfile (scenario_1 false) (Some EmptyString)) None).
Proof.
  exact (proj1 (empty_polyfile_is_no_polyfile
                  (example_world "region.poly" child_ok) init
                  (with_polyfile (scenario_1 false) (Some EmptyString))
                  eq_refl)).
Defined.

(** X3. No silent failure and no false alarm: [execute] returns [False]
    exactly when it logged an error line, it logs at most one, and on any
    other outcome it logged none. *)
Theorem failure_iff_error_logged
    (w : World) (self : OsmUpdateCommand) (args : Args) :
  (result (execute w self args) = Value false
   <-> exists msg, errors (trace (execute w self args)) = [msg])
  /\ (result (execute w self args) <> Value false
      -> errors (trace (execute w self args)) = []).
Proof.
  destruct (granularity args) as [| g rest] eqn:Hg.
  - rewrite (execute_no_granularity w self args Hg). unfold result, trace. simpl.
    split; [split; [discriminate | intros (msg & H); discriminate] | reflexivity].
  - rewrite (trace_execute w self args g rest Hg),
      (result_execute w self args g rest Hg).
    set (url := resolve_replication_server self g args).
    cbn [errors]. rewrite errors_execute_olu.
    destruct (polyfile_missing w args) eqn:Hm.
    + rewrite (result_execute_olu_missing w url args Hm).
      split; [split; [eauto | reflexivity] | congruence].
    + destruct (show args) eqn:Hs.
      * rewrite (result_execute_olu_show w url args Hm Hs).
        split; [split; [discriminate | intros (msg & H); discriminate]
               | reflexivity].
      * rewrite (result_execute_olu_run w url args Hm Hs).
        destruct (run_command w _ true) as [| [e | e]]; simpl;
          (split; [split; [try discriminate; eauto
                          | try reflexivity; intros (msg & H); discriminate]
                  | try reflexivity; congruence]).
Qed.

Lemma failure_iff_error_logged_witness :
  errors (trace (execute (example_world "region.poly" child_ok) init
                   (polygon_request false))) = [].
Proof.
  apply (proj2 (failure_iff_error_logged
                  (example_world "region.poly" child_ok) init
                  (polygon_request false))).
  discriminate.
Defined.

(** X4. Only an [Exception] of [run_command] is turned into [False]: an
    error that is none (a KeyboardInterrupt) leaves [execute] as it came,
    after a single launch and with no error line logged. *)
Theorem base_exception_propagates
    (w : World) (self : OsmUpdateCommand) (args : Args) (g e : string) :
  granularity args = [g] ->
  show args = false ->
  polyfile_missing w args = false ->
  run_command w
    (containerize_command w
       (invocation (resolve_replication_server self g args) args)) true
  = Raised (Py.BaseException e) ->
  result (execute w self args) = Raise (Py.BaseException e)
  /\ errors (trace (execute w self args)) = []
  /\ launches (trace (execute w self args))
     = [(containerize_command w
           (invocation (resolve_replication_server self g args) args), true)].
Proof.
  intros Hg Hs Hm Hr.
  rewrite (trace_execute w self args g [] Hg), (result_execute w self args g [] Hg).
  cbn [errors launches].
  rewrite errors_execute_olu, launches_execute_olu, Hm, Hs.
  rewrite (result_execute_olu_run w _ args Hm Hs), Hr.
  repeat split; reflexivity.
Qed.

Lemma base_exception_propagates_witness :
  result (execute (interrupted_world "region.poly") init (polygon_request false))
  = Raise (Py.BaseException "KeyboardInterrupt").
Proof.
  exact (proj1 (base_exception_propagates
                  (interrupted_world "region.poly") init (polygon_request false)
                  "day" "KeyboardInterrupt" eq_refl eq_refl eq_refl eq_refl)).
Defined.

(** X5. Whatever is launched was built and shown first: a command handed to
    [run_command] is the containerize helper's output for the one invocation
    built, it is among the texts shown, its output is streamed
    ([show_output=True]), [--show] was not given, and it is the only launch
    of the run. *)
Theorem launched_was_built_and_shown
    (w : World) (self : OsmUpdateCommand) (args : Args)
    (c : string) (o : bool) :
  In (c, o) (launches (trace (execute w self args))) ->
  o = true
  /\ show args = false
  /\ launches (trace (execute w self args)) = [(c, o)]
  /\ In c (shown (trace (execute w self args)))
  /\ exists ca,
       invocations (trace (execute w self args)) = [ca]
       /\ c = containerize_command w ca.
Proof.
  destruct (granularity args) as [| g rest] eqn:Hg.
  - rewrite (execute_no_granularity w self args Hg). intros [].
  - rewrite (trace_execute w self args g rest Hg).
    set (url := resolve_replication_server self g args).
    cbn [launches shown invocations].
    rewrite launches_execute_olu, shown_execute_olu, invocations_execute_olu.
    destruct (polyfile_missing w args); [intros [] |].
    destruct (show args); [intros [] |].
    intros [H | []]. inversion H; subst.
    repeat split; try reflexivity.
    + right. left. reflexivity.
    + now exists (invocation url args).
Qed.

Lemma launched_was_built_and_shown_witness :
  In (containerize_command (example_world "region.poly" child_ok)
        (invocation "https://planet.osm.org/replication/day/" (polygon_request false)),
      true)
     (launches (trace (execute (example_world "region.poly" child_ok) init
                         (polygon_request false))))
  /\ show (polygon_request false) = false.
Proof.
  assert (H : In (containerize_command (example_world "region.poly" child_ok)
                    (invocation "https://planet.osm.org/replication/day/"
                       (polygon_request false)), true)
                (launches (trace (execute (example_world "region.poly" child_ok) init
                                    (polygon_request false)))))
    by (left; reflexivity).
  split; [exact H |].
  exact (proj1 (proj2 (launched_was_built_and_shown
                         (example_world "region.poly" child_ok) init
                         (polygon_request false) _ _ H))).
Defined.

(** X6. [--show] previews the run: with the polygon file accepted, the run
    with [--show] and the run without build the same invocation, look up the
    same path and show the same texts, and the command launched without
    [--show] is the last text shown with it. *)
Theorem show_previews_the_launch
    (w : World) (self : OsmUpdateCommand) (args : Args) (g : string) :
  granularity args = [g] ->
  polyfile_missing w args = false ->
  invocations (trace (execute w self (with_show args true)))
    = invocations (trace (execute w self (with_show args false)))
  /\ lookups (trace (execute w self (with_show args true)))
     = lookups (trace (execute w self (with_show args false)))
  /\ shown (trace (execute w self (with_show args true)))
     = shown (trace (execute w self (with_show args false)))
  /\ launches (trace (execute w self (with_show args true))) = []
  /\ launches (trace (execute w self (with_show args false)))
     = [(last (shown (trace (execute w self (with_show args true)))) EmptyString,
         true)].
Proof.
  intros Hg Hm.
  assert (Hgb : forall b, granularity (with_show args b) = [g]) by (intros; exact Hg).
  assert (Hmb : forall b, polyfile_missing w (with_show args b) = false)
    by (intros; exact Hm).
  rewrite (trace_execute w self _ g [] (Hgb true)),
    (trace_execute w self _ g [] (Hgb false)).
  cbn [invocations lookups shown launches].
  rewrite !invocations_execute_olu, !lookups_execute_olu, !shown_execute_olu,
    !launches_execute_olu, !Hmb.
  cbn [with_show show polyfile orb].
  repeat split; reflexivity.
Qed.

Lemma show_previews_the_launch_witness :
  launches (trace (execute (example_world "region.poly" child_ok) init
                     (with_show (polygon_request true) false)))
  = [(last (shown (trace (execute (example_world "region.poly" child_ok) init
                            (with_show (polygon_request true) true))))
        EmptyString, true)].
Proof.
  destruct (show_previews_the_launch
              (example_world "region.poly" child_ok) init (polygon_request true)
              "day" eq_refl eq_refl)
    as (_ & _ & _ & _ & H).
  exact H.
Defined.

(** X7. With a non-empty [--replication-server] the granularity reaches the
    description only: two requests that differ in nothing but the
    granularity have the same run after the first line, and the same
    result. *)
Theorem granularity_unused_under_override
    (w : World) (self : OsmUpdateCommand) (args : Args) (u g1 g2 : string) :
  replication_server args = Some u ->
  u <> EmptyString ->
  exists rest,
    trace (execute w self (with_granularity args [g1]))
      = EShow (shown_description self g1 (with_granularity args [g1])) (show args)
          :: rest
    /\ trace (execute w self (with_granularity args [g2]))
       = EShow (shown_description self g2 (with_granularity args [g2])) (show args)
           :: rest
    /\ result (execute w self (with_granularity args [g1]))
       = result (execute w self (with_granularity args [g2]))
    /\ forall ca, In ca (invocations rest) ->
         cmd ca = olu_cmd_final u args.
Proof.
  intros Hr Hu.
  assert (Ht : Py.truthy (replication_server args) = true)
    by (apply truthy_some; exists u; auto).
  assert (Hres : forall g, resolve_replication_server self g
                             (with_granularity args [g]) = u).
  { intros g. unfold resolve_replication_server.
    cbn [with_granularity replication_server]. now rewrite Ht, Hr. }
  assert (Holu : forall g, execute_olu w u (with_granularity args [g])
                           = execute_olu w u args) by reflexivity.
  exists (trace (execute_olu w u args)).
  rewrite (trace_execute w self (with_granularity args [g1]) g1 [] eq_refl),
    (trace_execute w self (with_granularity args [g2]) g2 [] eq_refl),
    (result_execute w self (with_granularity args [g1]) g1 [] eq_refl),
    (result_execute w self (with_granularity args [g2]) g2 [] eq_refl).
  rewrite !Hres, !Holu. cbn [with_granularity show].
  repeat split.
  intros ca. rewrite invocations_execute_olu.
  destruct (polyfile_missing w args); [intros [] | intros [<- | []]].
  reflexivity.
Qed.

Lemma granularity_unused_under_override_witness :
  result (execute (example_world "region.poly" child_ok) init
            (with_granularity override_request ["minute"]))
  = result (execute (example_world "region.poly" child_ok) init
              (with_granularity override_request ["day"])).
Proof.
  destruct (granularity_unused_under_override
              (example_world "region.poly" child_ok) init override_request
              "https://download.geofabrik.de/updates/" "minute" "day" eq_refl)
    as (rest & _ & _ & H & _); [discriminate |].
  exact H.
Defined.

Lemma length_append (a b : string) :
  String.length (a ++ b) = (String.length a + String.length b)%nat.
Proof. induction a as [| ch a IH]; simpl; [reflexivity | now rewrite IH]. Qed.

(** X8. The values are pasted into the command as they are, with nothing to
    delimit them: the request with access token [a -f b] and server URL [c]
    runs exactly like the one with access token [a] and server URL
    [b -f c], though the two tokens differ. *)
Theorem inner_command_not_delimited
    (w : World) (args : Args) (a b c : string) :
  execute_olu w c (with_access_token args (a ++ " -f " ++ b))
    = execute_olu w (b ++ " -f " ++ c) (with_access_token args a)
  /\ a ++ " -f " ++ b <> a.
Proof.
  split.
  - assert (Hb : olu_cmd_base c (with_access_token args (a ++ " -f " ++ b))
                 = olu_cmd_base (b ++ " -f " ++ c) (with_access_token args a)).
    { unfold olu_cmd_base. cbn [with_access_token host_name port access_token].
      now rewrite !append_assoc. }
    unfold execute_olu. rewrite Hb. reflexivity.
  - intros H. apply (f_equal String.length) in H.
    rewrite !length_append in H. simpl in H. lia.
Qed.

(** The one place where [execute_olu] depends on the disk. *)
Lemma polyfile_missing_ext (w1 w2 : World) (args : Args) :
  (forall p, polyfile args = Some p -> os_path_exists w1 p = os_path_exists w2 p) ->
  polyfile_missing w1 args = polyfile_missing w2 args.
Proof.
  intros H. unfold polyfile_missing.
  destruct (polyfile args) as [p |] eqn:Hp; [| reflexivity].
  cbn [Py.fmt]. now rewrite (H p eq_refl).
Qed.

(** X9. Of the disk, only the polygon file matters, and only it is looked
    up: two worlds with the same helpers that agree on whether that one path
    exists give the same run, whatever else is on disk. *)
Theorem only_the_polyfile_is_consulted
    (w1 w2 : World) (self : OsmUpdateCommand) (args : Args) :
  (forall ca, containerize_command w1 ca = containerize_command w2 ca) ->
  (forall c o, run_command w1 c o = run_command w2 c o) ->
  (forall p, polyfile args = Some p -> os_path_exists w1 p = os_path_exists w2 p) ->
  execute w1 self args = execute w2 self args
  /\ forall p, In p (lookups (trace (execute w1 self args))) ->
       polyfile args = Some p.
Proof.
  intros Hc Hr Hx.
  assert (Hm := polyfile_missing_ext w1 w2 args Hx).
  assert (He : forall url, execute_olu w1 url args = execute_olu w2 url args).
  { intros url. destruct (polyfile_missing w2 args) eqn:Hm2.
    - now rewrite (execute_olu_missing w1 url args Hm),
        (execute_olu_missing w2 url args Hm2).
    - destruct (show args) eqn:Hs.
      + now rewrite (execute_olu_show w1 url args Hm Hs),
          (execute_olu_show w2 url args Hm2 Hs), Hc.
      + rewrite (execute_olu_run w1 url args Hm Hs),
          (execute_olu_run w2 url args Hm2 Hs). cbv zeta.
        now rewrite Hc, Hr. }
  split.
  - unfold execute.
    destruct (index0 (granularity args)) as [t [g | e]]; [| reflexivity].
    cbn [bind]. now rewrite He.
  - destruct (granularity args) as [| g rest] eqn:Hg.
    + rewrite (execute_no_granularity w1 self args Hg). intros p [].
    + rewrite (trace_execute w1 self args g rest Hg). cbn [lookups].
      rewrite lookups_execute_olu. intros p.
      destruct (Py.truthy (polyfile args)) eqn:Ht; [| intros []].
      apply truthy_some in Ht. destruct Ht as (q & Hq & _). rewrite Hq.
      intros [<- | []]. reflexivity.
Qed.

Lemma only_the_polyfile_is_consulted_witness :
  execute (example_world "region.poly" child_fails) init (polygon_request false)
  = execute (full_disk_world child_fails) init (polygon_request false).
Proof.
  refine (proj1 (only_the_polyfile_is_consulted
                   (example_world "region.poly" child_fails)
                   (full_disk_world child_fails) init (polygon_request false)
                   (fun _ => eq_refl) (fun _ _ => eq_refl) _)).
  intros p Hp. injection Hp as <-. reflexivity.
Defined.

(** X10. What [True] means: [execute] returns [True] exactly when the
    polygon file was accepted and either [--show] was given or
    [run_command] returned normally on the containerized command. *)
Theorem true_iff_shown_or_run
    (w : World) (self : OsmUpdateCommand) (args : Args)
    (g : string) (rest : list string) :
  granularity args = g :: rest ->
  result (execute w self args) = Value true
  <-> polyfile_missing w args = false
      /\ (show args = true
          \/ run_command w
               (containerize_command w
                  (invocation (resolve_replication_server self g args) args)) true
             = Returned).
Proof.
  intros Hg. rewrite (result_execute w self args g rest Hg).
  set (url := resolve_replication_server self g args).
  destruct (polyfile_missing w args) eqn:Hm.
  - rewrite (result_execute_olu_missing w url args Hm).
    split; [discriminate | intros [H _]; discriminate].
  - destruct (show args) eqn:Hs.
    + rewrite (result_execute_olu_show w url args Hm Hs). tauto.
    + rewrite (result_execute_olu_run w url args Hm Hs).
      destruct (run_command w _ true) as [| [e | e]]; simpl.
      * tauto.
      * split; [discriminate | intros [_ [H | H]]; discriminate].
      * split; [discriminate | intros [_ [H | H]]; discriminate].
Qed.

Lemma true_iff_shown_or_run_witness :
  result (execute (example_world "region.poly" child_ok) init
            (polygon_request false)) = Value true.
Proof.
  apply (proj2 (true_iff_shown_or_run
                  (example_world "region.poly" child_ok) init
                  (polygon_request false) "day" [] eq_refl)).
  split; [reflexivity | right; reflexivity].
Defined.
